(** * Shallow embedding of [scidownl/core/extractor.py]

    The HTML landing page is modelled as BeautifulSoup sees it: a list of
    parsed elements in document order.  Python [str] values are Rocq
    [string]s, exceptions are an inductive type, the mutable task context
    is a record threaded through [extract], and the calls made on the
    mirror-health service ([ScihubUrlService]) are recorded in a log. *)

From Stdlib Require Import String Ascii List Bool Arith Lia.
From Stdlib Require Import Sorting.Sorted Sorting.Permutation.
Import ListNotations.
Open Scope string_scope.
Open Scope bool_scope.

(** ** Python string primitives used by the extractor *)
Module PyStr.

(** [s.startswith(p)] *)
Fixpoint startswith (s p : string) : bool :=
  match p, s with
  | EmptyString, _ => true
  | String c p', String d s' => Ascii.eqb c d && startswith s' p'
  | String _ _, EmptyString => false
  end.

(** [p in s] (substring test) *)
Fixpoint contains (s p : string) : bool :=
  startswith s p ||
  match s with
  | EmptyString => false
  | String _ s' => contains s' p
  end.

(** [c in s] for a one-character [c] *)
Fixpoint contains_char (s : string) (c : ascii) : bool :=
  match s with
  | EmptyString => false
  | String d s' => Ascii.eqb c d || contains_char s' c
  end.

(** [s.split(c)[0]]: everything before the first [c] *)
Fixpoint split_head (s : string) (c : ascii) : string :=
  match s with
  | EmptyString => EmptyString
  | String d s' => if Ascii.eqb c d then EmptyString else String d (split_head s' c)
  end.

(** [s.split(c)] *)
Fixpoint split (s : string) (c : ascii) : list string :=
  match s with
  | EmptyString => [EmptyString]
  | String d s' =>
      if Ascii.eqb c d then EmptyString :: split s' c
      else match split s' c with
           | [] => [String d EmptyString]
           | x :: xs => String d x :: xs
           end
  end.

(** [s[n:]] *)
Fixpoint drop (n : nat) (s : string) : string :=
  match n, s with
  | O, _ => s
  | S _, EmptyString => EmptyString
  | S n', String _ s' => drop n' s'
  end.

(** [s[:n]] *)
Fixpoint take (n : nat) (s : string) : string :=
  match n, s with
  | O, _ => EmptyString
  | S _, EmptyString => EmptyString
  | S n', String c s' => String c (take n' s')
  end.

(** [c.isspace()] on the ASCII range: space, \t \n \v \f \r and the
    separators \x1c-\x1f, which Python also counts as whitespace. *)
Definition isspace (c : ascii) : bool :=
  let n := nat_of_ascii c in
  Nat.eqb n 32 || (Nat.leb 9 n && Nat.leb n 13) || (Nat.leb 28 n && Nat.leb n 31).

Fixpoint lstrip (s : string) : string :=
  match s with
  | EmptyString => EmptyString
  | String c s' => if isspace c then lstrip s' else s
  end.

Fixpoint rstrip (s : string) : string :=
  match s with
  | EmptyString => EmptyString
  | String c s' =>
      let r := rstrip s' in
      if isspace c && String.eqb r EmptyString then EmptyString else String c r
  end.

(** [s.strip()] *)
Definition strip (s : string) : string := rstrip (lstrip s).

(** Python truthiness of a [str]: non-empty *)
Definition truthy (s : string) : bool := negb (String.eqb s EmptyString).

(** [re.sub(pattern, repl, s)] for a one-character class [pattern] and a
    one-character [repl] *)
Fixpoint sub_chars (cls : ascii -> bool) (repl : ascii) (s : string) : string :=
  match s with
  | EmptyString => EmptyString
  | String c s' => String (if cls c then repl else c) (sub_chars cls repl s')
  end.

End PyStr.

(** ** Exceptions *)

(** The exceptions that can leave the extraction steps.  The Python
    hierarchy matters for [except Exception]: [KeyboardInterrupt],
    [SystemExit] and [GeneratorExit] derive from [BaseException] only. *)
Inductive exn :=
| PdfTagNotFoundException (msg : string)
| PdfUrlNotFoundException (msg : string)
| ExtractException (msg : string) (context : exn)
    (** [context] is the exception being handled when it was raised
        (Python's implicit [__context__] chaining) *)
| OtherException (name msg : string)
    (** any other subclass of [Exception] (parser errors, [TypeError], ...) *)
| KeyboardInterrupt
| SystemExit
| GeneratorExit.

(** [isinstance(e, Exception)] *)
Definition is_Exception (e : exn) : bool :=
  match e with
  | KeyboardInterrupt | SystemExit | GeneratorExit => false
  | _ => true
  end.

(** [str(e)] *)
Definition exn_str (e : exn) : string :=
  match e with
  | PdfTagNotFoundException m | PdfUrlNotFoundException m
  | ExtractException m _ | OtherException _ m => m
  | _ => EmptyString
  end.

(** Result of a Python call: a value or a raised exception. *)
Inductive result (A : Type) :=
| Ok (a : A)
| Raise (e : exn).
Arguments Ok {A} a.
Arguments Raise {A} e.

Definition bind {A B} (r : result A) (f : A -> result B) : result B :=
  match r with Ok a => f a | Raise e => Raise e end.

Notation "x <- r ;; f" := (bind r (fun x => f))
  (at level 61, r at next level, right associativity).

(** ** [UrlInformation] constants (scidownl/core/information.py) *)
Module UrlInformation.

(** Modelled from the spec: [UrlInformation.PROTOCOL_PREFIXES], the
    "recognized absolute-URL protocol prefix"es (information.py is not
    among the sources). *)
Definition PROTOCOL_PREFIXES : list string := ["http://"; "https://"].

(** Modelled from the spec: [UrlInformation.DEFAULT_PROTOCOL_PREFIX], the
    "default scheme" ([//example.com/x] resolves to [https://example.com/x]). *)
Definition DEFAULT_PROTOCOL_PREFIX : string := "https://".

End UrlInformation.

(** ** Data model *)

(** A parsed HTML element: tag name, attribute dictionary (in source
    order, keys distinct) and [get_text()]. *)
Record element := mk_element {
  el_name : string;
  el_attrs : list (string * string);
  el_text : string
}.

(** The parse tree as BeautifulSoup searches it: elements in document order. *)
Definition soup := list element.

(** [tag.attrs.get(k)] *)
Fixpoint attrs_get (attrs : list (string * string)) (k : string) : option string :=
  match attrs with
  | [] => None
  | (k', v) :: rest => if String.eqb k k' then Some v else attrs_get rest k
  end.

(** [soup.find(name)] *)
Definition find_name (name : string) (doc : soup) : option element :=
  find (fun el => String.eqb (el_name el) name) doc.

(** [soup.find(name, {attr: value})] *)
Definition find_attr (name attr value : string) (doc : soup) : option element :=
  find (fun el => String.eqb (el_name el) name &&
                  match attrs_get (el_attrs el) attr with
                  | Some v => String.eqb v value
                  | None => false
                  end) doc.

(** A configured CSS selector: its text (used in error messages) and the
    elements it matches. *)
Record selector := mk_selector {
  sel_text : string;
  sel_match : element -> bool
}.

(** [soup.select_one(selector)] *)
Definition select_one (sel : selector) (doc : soup) : option element :=
  find (sel_match sel) doc.

(** [PdfUrlTitleInformation(url, title)] *)
Record PdfUrlTitleInformation := mk_info {
  info_url : string;
  info_title : string
}.

(** [task.context]: the keys the extractor reads or writes. *)
Record context := mk_context {
  ctx_status : string;
  ctx_referer : option string;
  ctx_info : option PdfUrlTitleInformation;
  ctx_error : option exn
}.

Definition set_status (s : string) (c : context) : context :=
  mk_context s (ctx_referer c) (ctx_info c) (ctx_error c).
Definition set_info (i : PdfUrlTitleInformation) (c : context) : context :=
  mk_context (ctx_status c) (ctx_referer c) (Some i) (ctx_error c).
Definition set_error (e : exn) (c : context) : context :=
  mk_context (ctx_status c) (ctx_referer c) (ctx_info c) (Some e).

(** Calls made on the mirror-health service [ScihubUrlService]; the
    argument is the scihub url ([None] when the context has no referer). *)
Inductive health_call :=
| increment_failed_times (url : option string)
| increment_success_times (url : option string).

(** ** [get_default_referer] *)

Record ScihubUrl := mk_scihub_url {
  url : string;
  success_times : nat;
  failed_times : nat
}.

(** The chooser interface used by [get_default_referer]: [len(chooser)]
    and [chooser.next()] (which may raise, e.g. when no mirror is left). *)
Class ScihubUrlChooser (C : Type) := {
  chooser_len : C -> nat;
  chooser_next : C -> result ScihubUrl
}.

Definition map_result {A B} (f : A -> B) (r : result A) : result B :=
  match r with Ok a => Ok (f a) | Raise e => Raise e end.

(** [scihub_url_choosers.get(chooser_type, fallback)()] and
    [get_default_referer()]: [registry] is [scihub_url_choosers],
    [fallback] the [AvailabilityFirstScihubUrlChooser], [chooser_type]
    the configured [scihub_url_chooser_type]; a registry entry is the
    chooser that class constructs. *)
Definition chooser_of {C} (registry : list (string * C)) (fallback : C)
    (chooser_type : string) : C :=
  match find (fun p => String.eqb (fst p) chooser_type) registry with
  | Some (_, c) => c
  | None => fallback
  end.

Definition get_default_referer {C} `{ScihubUrlChooser C}
    (registry : list (string * C)) (fallback : C) (chooser_type : string)
  : result string :=
  let chooser := chooser_of registry fallback chooser_type in
  if Nat.eqb (chooser_len chooser) 0 then Ok "https://sci-hub.se"
  else map_result url (chooser_next chooser).

(** ** [HtmlPdfExtractor] *)
Module HtmlPdfExtractor.
Import PyStr.

Section Extractor.

(** [configs['scihub.task.extractor']['pdf_tag_selector']] *)
Variable pdf_tag_selector : selector.
(** [configs['scihub.task.extractor']['pdf_tag_attr']] *)
Variable pdf_tag_attr : string.
(** [HtmlPdfExtractor.DEFAULT_REFERER], computed by [get_default_referer()]
    when the class is defined *)
Variable DEFAULT_REFERER : string.

(** [__init__]: the task (if any) enters status ['extracting']. *)
Definition init (task : option context) : option context :=
  option_map (set_status "extracting") task.

(** [_extract_raw_url] *)
Definition _extract_raw_url (doc : soup) : result string :=
  match select_one pdf_tag_selector doc with
  | None =>
      Raise (PdfTagNotFoundException
               ("No pdf tag was found in the given content with the selector: "
                  ++ sel_text pdf_tag_selector))
  | Some pdf_tag =>
      match attrs_get (el_attrs pdf_tag) pdf_tag_attr with
      | None =>
          Raise (PdfUrlNotFoundException
                   ("No pdf url was found in the pdf tag: " ++ el_text pdf_tag
                      ++ " with the attr " ++ pdf_tag_attr))
      | Some raw_url => Ok raw_url
      end
  end.

(** The referer used for a value starting with "/". *)
Definition referer_of (task : option context) : string :=
  match task with
  | None => DEFAULT_REFERER
  | Some c =>
      match ctx_referer c with
      | Some r => r
      | None => DEFAULT_REFERER
      end
  end.

(** The body of [_extract_url] after the raw value has been read. *)
Definition resolve_url (task : option context) (raw_url : string) : string :=
  if existsb (contains raw_url) UrlInformation.PROTOCOL_PREFIXES then raw_url
  else
    let url := split_head raw_url "#" in
    if startswith url "//" then UrlInformation.DEFAULT_PROTOCOL_PREFIX ++ drop 2 url
    else if startswith url "/" then referer_of task ++ url
    else url.

(** [_extract_url] *)
Definition _extract_url (task : option context) (doc : soup) : result string :=
  raw_url <- _extract_raw_url doc ;; Ok (resolve_url task raw_url).

(** The character class [rstr] of [_clean_title]: / \ : * ? double-quote < > |. *)
Definition hostile (c : ascii) : bool :=
  existsb (Ascii.eqb c) ["/"; "\"; ":"; "*"; "?"; ascii_of_nat 34; "<"; ">"; "|"]%char.

(** [_clean_title] *)
Definition _clean_title (title : string) : string :=
  if negb (truthy title) then EmptyString
  else strip (take 200 (sub_chars hostile " " title)).

(** [soup.title] *)
Definition soup_title (doc : soup) : option element := find_name "title" doc.

(** [_extract_title] *)
Definition _extract_title (doc : soup) : string :=
  (* Method 1 *)
  let title :=
    match soup_title doc with
    | Some t =>
        if Nat.ltb 0 (String.length (el_text t)) then
          if contains_char (el_text t) "|" then nth 1 (split (el_text t) "|") EmptyString
          else el_text t
        else EmptyString
    | None => EmptyString
    end in
  (* Method 2 *)
  let title :=
    if negb (truthy (strip title)) then
      match find_name "h1" doc with
      | Some h1 => el_text h1
      | None => title
      end
    else title in
  (* Method 3 *)
  let title :=
    if negb (truthy (strip title)) then
      let meta_title :=
        match find_attr "meta" "name" "citation_title" doc with
        | Some m => Some m
        | None => find_attr "meta" "property" "og:title" doc
        end in
      match meta_title with
      | Some m =>
          match attrs_get (el_attrs m) "content" with
          | Some c => c
          | None => title
          end
      | None => title
      end
    else title in
  _clean_title title.

(** The [try] body of [extract]. *)
Definition extract_body (task : option context) (doc : soup)
  : result PdfUrlTitleInformation :=
  u <- _extract_url task doc ;;
  let title := _extract_title doc in
  Ok (mk_info u title).

(** The handler of [extract], given the outcome of its [try] body: it
    returns the outcome of [extract], the task context afterwards and
    the calls made on the health service, appended to [log]. *)
Definition extract_handle (task : option context) (log : list health_call)
    (body : result PdfUrlTitleInformation)
  : result PdfUrlTitleInformation * option context * list health_call :=
  match body with
  | Ok info => (Ok info, option_map (set_info info) task, log)
  | Raise e =>
      if is_Exception e then
        let task' := option_map (fun c => set_error e (set_status "extracting_failed" c)) task in
        let log' :=
          match task with
          | Some c => app log [increment_failed_times (ctx_referer c)]
          | None => log
          end in
        (Raise (ExtractException ("Error occurs when extracting: " ++ exn_str e) e), task', log')
      else (Raise e, task, log)
  end.

(** [extract] *)
Definition extract (task : option context) (log : list health_call) (doc : soup)
  : result PdfUrlTitleInformation * option context * list health_call :=
  extract_handle task log (extract_body task doc).

End Extractor.
End HtmlPdfExtractor.

(** ** The command line ([scidownl/api/cli.py]) *)
Module Cli.
Import PyStr.

(** *** [download]: DOIs read from [--input-file] *)



(** *** [download]: [--out] with several sources *)




(** *** [download]: proxies *)

(** A Python dict with string keys, in insertion order. *)
Definition dict := list (string * string).

(** [d[k] = v]: an existing key keeps its place, a new key goes last. *)
Fixpoint dict_set (d : dict) (k v : string) : dict :=
  match d with
  | [] => [(k, v)]
  | (k', v') :: rest => if String.eqb k k' then (k', v) :: rest else (k', v') :: dict_set rest k v
  end.

(** The proxies of [download]: [cfg_http] and [cfg_https] are
    [configs['proxy'].get('http')] and [.get('https')], [proxy] the
    [--proxy] option. *)
Definition build_proxies (cfg_http cfg_https proxy : option string) : dict :=
  let proxies := [] in
  let proxies := match cfg_http with Some v => dict_set proxies "http" v | None => proxies end in
  let proxies := match cfg_https with Some v => dict_set proxies "https" v | None => proxies end in
  match proxy with
  | Some p =>
      if contains_char p "=" then
        match split p "=" with
        | scheme :: proxy_address :: _ => dict_set proxies scheme proxy_address
        | _ => proxies
        end
      else proxies
  | None => proxies
  end.

(** *** [download]: the tasks *)

(** A source keyword: a DOI or title string, or a PMID number. *)
Inductive keyword :=
| KwStr (s : string)
| KwInt (n : nat).

Record task_kwargs := mk_task_kwargs {
  source_keyword : keyword;
  source_type : string;
  scihub_url : option string;
  out : option string;
  proxies : dict
}.

Definition build_tasks (doi : list string) (pmid : list nat) (title : list string)
    (su out : option string) (px : dict) : list task_kwargs :=
  (map (fun d => mk_task_kwargs (KwStr d) "doi" su out px) doi
   ++ map (fun p => mk_task_kwargs (KwInt p) "pmid" su out px) pmid
   ++ map (fun t => mk_task_kwargs (KwStr t) "title" su out px) title)%list.

(** *** [download]: the run loop *)

(** How [task.run()] ended: returned, with [context.get('status')], or
    raised [e], with the context's ['status'] and ['error'] ([None] when
    the key is missing). *)
Inductive run_outcome :=
| Finished (status : option string)
| Raised (e : exn) (status error : option string).

Definition failed_statuses : list string :=
  ["crawling_failed"; "extracting_failed"; "downloading_failed"].

Definition KeyError : exn := OtherException "KeyError" EmptyString.

Record batch := mk_batch {
  total_attempted : nat;
  successful_downloads : nat;
  failed_sources : list keyword;
  progress : list (nat * nat)  (** the logged (successful, attempted) pairs *)
}.

Definition batch0 : batch := mk_batch 0 0 [] [].

(** [(total_attempted % 5 == 0 and total_attempted < len(tasks)) or
    total_attempted == len(tasks)] *)
Definition logs_progress (n total : nat) : bool :=
  (Nat.eqb (Nat.modulo total 5) 0 && Nat.ltb total n) || Nat.eqb total n.

(** One iteration of the loop over [n] tasks. *)
Definition run_one (n : nat) (b : batch) (tk : task_kwargs) (o : run_outcome) : result batch :=
  let total := S (total_attempted b) in
  let counted : result (nat * list keyword) :=
    match o with
    | Finished st =>
        if match st with Some s => existsb (String.eqb s) failed_statuses | None => false end
        then Ok (successful_downloads b, failed_sources b ++ [source_keyword tk])%list
        else Ok (S (successful_downloads b), failed_sources b)
    | Raised e st err =>
        if is_Exception e then
          match st, err with
          | Some _, Some _ => Ok (successful_downloads b, failed_sources b ++ [source_keyword tk])%list
          | _, _ => Raise KeyError
          end
        else Raise e
    end in
  bind counted (fun p =>
    Ok (mk_batch total (fst p) (snd p)
          (if logs_progress n total then (progress b ++ [(fst p, total)])%list
           else progress b))).

Fixpoint run_from (n : nat) (b : batch) (runs : list (task_kwargs * run_outcome)) : result batch :=
  match runs with
  | [] => Ok b
  | (tk, o) :: rest => bind (run_one n b tk o) (fun b' => run_from n b' rest)
  end.

(** The loop of [download] over the tasks, each paired with how it ran. *)
Definition run_tasks (runs : list (task_kwargs * run_outcome)) : result batch :=
  run_from (length runs) batch0 runs.

(** The sources recorded as failed for one run. *)
Definition run_failed (o : run_outcome) : bool :=
  match o with
  | Finished (Some s) => existsb (String.eqb s) failed_statuses
  | Finished None => false
  | Raised _ _ _ => true
  end.

(** *** [download]: the [_failed] file *)

(** The scan of [rfind]: [i] is the index of the head of [s], [acc] the
    last index of [c] seen before it. *)
Fixpoint rfind_go (c : ascii) (s : string) (i : nat) (acc : option nat) : option nat :=
  match s with
  | EmptyString => acc
  | String d s' => rfind_go c s' (S i) (if Ascii.eqb c d then Some i else acc)
  end.

(** [s.rfind(c)], [None] standing for -1 *)
Definition rfind (c : ascii) (s : string) : option nat := rfind_go c s 0 None.

(** [os.path.splitext] ([genericpath._splitext] with sep '/', extsep '.'). *)
Definition splitext (p : string) : string * string :=
  let sepIndex := rfind "/" p in
  let dotIndex := rfind "." p in
  let filenameIndex := match sepIndex with Some i => S i | None => 0 end in
  match dotIndex with
  | Some d =>
      if Nat.leb filenameIndex d
         && existsb (fun i => negb (match String.get i p with
                                    | Some c => Ascii.eqb c "."
                                    | None => false
                                    end))
                    (seq filenameIndex (d - filenameIndex))
      then (take d p, drop d p)
      else (p, EmptyString)
  | None => (p, EmptyString)
  end.

(** [f"{base_name}_failed{ext}"] *)
Definition failed_file_name (input_file : string) : string :=
  let (base_name, ext) := splitext input_file in
  base_name ++ "_failed" ++ ext.

(** *** [domain.list] *)

(** [urls.sort(key=lambda url: url.success_times, reverse=True)]: a stable
    sort, descending by [success_times]. *)
Fixpoint insert_desc (u : ScihubUrl) (l : list ScihubUrl) : list ScihubUrl :=
  match l with
  | [] => [u]
  | v :: rest =>
      if Nat.leb (success_times v) (success_times u) then u :: v :: rest
      else v :: insert_desc u rest
  end.

Fixpoint sort_by_success (l : list ScihubUrl) : list ScihubUrl :=
  match l with
  | [] => []
  | u :: rest => insert_desc u (sort_by_success rest)
  end.

(** The rows of the table printed by [list_domains]. *)
Definition list_domains_rows (urls : list ScihubUrl) : list (string * nat * nat) :=
  map (fun u => (url u, success_times u, failed_times u)) (sort_by_success urls).

(** *** [config --get] *)







End Cli.

(** ** Concrete configuration used by the examples *)

Import HtmlPdfExtractor.

(** The selector [#pdf]. *)
Definition pdf_selector : selector :=
  mk_selector "#pdf"
    (fun el => match attrs_get (el_attrs el) "id" with
               | Some v => String.eqb v "pdf"
               | None => false
               end).

Definition fallback_referer : string := "https://sci-hub.se".

Definition ctx_at (referer : option string) : context :=
  mk_context "extracting" referer None None.

(** The outcome, the context and the health log of an [extract] call. *)
Definition outcome {A B C} (r : A * B * C) : A := fst (fst r).
Definition ctx_after {A B C} (r : A * B * C) : B := snd (fst r).
Definition log_after {A B C} (r : A * B * C) : C := snd r.

(** ** Lemmas on the string primitives *)

Fixpoint all_chars (P : ascii -> bool) (s : string) : bool :=
  match s with
  | EmptyString => true
  | String c s' => P c && all_chars P s'
  end.

Lemma all_chars_get (P : ascii -> bool) (s : string) (n : nat) (c : ascii) :
  all_chars P s = true -> String.get n s = Some c -> P c = true.
Proof.
  revert n. induction s as [|d s IH]; intros n Hall Hget; [discriminate|].
  simpl in Hall. apply andb_prop in Hall as [Hd Hs].
  destruct n as [|n]; simpl in Hget.
  - injection Hget as <-. exact Hd.
  - exact (IH n Hs Hget).
Qed.

Lemma all_chars_take (P : ascii -> bool) (n : nat) (s : string) :
  all_chars P s = true -> all_chars P (PyStr.take n s) = true.
Proof.
  revert s. induction n as [|n IH]; intros [|c s] H; simpl in *; auto.
  apply andb_prop in H as [Hc Hs]. rewrite Hc. simpl. auto.
Qed.

Lemma all_chars_lstrip (P : ascii -> bool) (s : string) :
  all_chars P s = true -> all_chars P (PyStr.lstrip s) = true.
Proof.
  induction s as [|c s IH]; intros H; simpl in *; auto.
  apply andb_prop in H as [Hc Hs].
  destruct (PyStr.isspace c); simpl; auto. rewrite Hc, Hs. reflexivity.
Qed.

Lemma all_chars_rstrip (P : ascii -> bool) (s : string) :
  all_chars P s = true -> all_chars P (PyStr.rstrip s) = true.
Proof.
  induction s as [|c s IH]; intros H; simpl in *; auto.
  apply andb_prop in H as [Hc Hs].
  destruct (PyStr.isspace c && String.eqb (PyStr.rstrip s) EmptyString); simpl; auto.
  rewrite Hc, (IH Hs). reflexivity.
Qed.

Lemma length_take (n : nat) (s : string) : String.length (PyStr.take n s) <= n.
Proof.
  revert s. induction n as [|n IH]; intros [|c s]; simpl; try lia.
  specialize (IH s). lia.
Qed.

Lemma length_lstrip (s : string) : String.length (PyStr.lstrip s) <= String.length s.
Proof.
  induction s as [|c s IH]; simpl; auto.
  destruct (PyStr.isspace c); simpl; lia.
Qed.

Lemma length_rstrip (s : string) : String.length (PyStr.rstrip s) <= String.length s.
Proof.
  induction s as [|c s IH]; simpl; auto.
  destruct (PyStr.isspace c && String.eqb (PyStr.rstrip s) EmptyString); simpl; lia.
Qed.

Lemma length_strip (s : string) : String.length (PyStr.strip s) <= String.length s.
Proof.
  unfold PyStr.strip. pose proof (length_lstrip s). pose proof (length_rstrip (PyStr.lstrip s)).
  lia.
Qed.

Lemma length_sub_chars (cls : ascii -> bool) (r : ascii) (s : string) :
  String.length (PyStr.sub_chars cls r s) = String.length s.
Proof. induction s; simpl; auto. Qed.

Lemma sub_chars_clears (s : string) :
  all_chars (fun c => negb (hostile c)) (PyStr.sub_chars hostile " " s) = true.
Proof.
  induction s as [|c s IH]; simpl; auto.
  rewrite IH, andb_true_r.
  destruct (hostile c) eqn:E; simpl; rewrite ?E; reflexivity.
Qed.

Lemma truthy_false (s : string) : PyStr.truthy s = false -> s = EmptyString.
Proof.
  unfold PyStr.truthy. destruct (String.eqb s EmptyString) eqn:E; simpl; intros H;
    [apply String.eqb_eq in E; exact E | discriminate].
Qed.

(** ** Claims *)

(** C7: [_clean_title] replaces each of / \ : * ? double-quote < > | by a
    space (one character for one: the length is kept), truncates to 200
    characters and strips surrounding whitespace; the result has at most
    200 characters and none of those characters, and is an ordinary
    string (possibly empty), never an error.  For example ["My/Title:Here"]
    becomes ["My Title Here"]. *)
Theorem clean_title_replaces_truncates_strips (title : string) :
  _clean_title title = PyStr.strip (PyStr.take 200 (PyStr.sub_chars hostile " " title))
  /\ String.length (PyStr.sub_chars hostile " " title) = String.length title
  /\ String.length (_clean_title title) <= 200
  /\ (forall n c, String.get n (_clean_title title) = Some c -> hostile c = false)
  /\ _clean_title "My/Title:Here" = "My Title Here"
  /\ _clean_title "   " = EmptyString.
Proof.
  assert (Hdef : _clean_title title
                 = PyStr.strip (PyStr.take 200 (PyStr.sub_chars hostile " " title))).
  { unfold _clean_title. destruct (PyStr.truthy title) eqn:E; simpl; [reflexivity|].
    rewrite (truthy_false _ E). reflexivity. }
  split; [exact Hdef|].
  split; [apply length_sub_chars|].
  split.
  { rewrite Hdef. pose proof (length_strip (PyStr.take 200 (PyStr.sub_chars hostile " " title))).
    pose proof (length_take 200 (PyStr.sub_chars hostile " " title)). lia. }
  split.
  { intros n c Hget. rewrite Hdef in Hget.
    apply (all_chars_get (fun c => negb (hostile c))) in Hget.
    - destruct (hostile c); [discriminate|reflexivity].
    - unfold PyStr.strip. apply all_chars_rstrip, all_chars_lstrip, all_chars_take.
      apply sub_chars_clears. }
  split; reflexivity.
Qed.

(** C4: a raw URL value that contains a recognized protocol prefix is
    returned by [_extract_url] unchanged, fragment included. *)
Theorem extract_url_keeps_absolute (sel : selector) (attr D : string)
    (task : option context) (doc : soup) (raw p : string)
    (Hraw : _extract_raw_url sel attr doc = Ok raw)
    (Hp : In p UrlInformation.PROTOCOL_PREFIXES) (Hin : PyStr.contains raw p = true) :
  _extract_url sel attr D task doc = Ok raw.
Proof.
  unfold _extract_url. rewrite Hraw. simpl. unfold resolve_url.
  replace (existsb (PyStr.contains raw) UrlInformation.PROTOCOL_PREFIXES) with true;
    [reflexivity|].
  symmetry. apply existsb_exists. exists p. split; assumption.
Qed.

Definition abs_doc : soup :=
  [mk_element "a" [("id", "pdf"); ("href", "https://x.org/a.pdf#page=2")] "PDF"].

Lemma extract_url_keeps_absolute_witness :
  _extract_raw_url pdf_selector "href" abs_doc = Ok "https://x.org/a.pdf#page=2"
  /\ In "https://" UrlInformation.PROTOCOL_PREFIXES
  /\ PyStr.contains "https://x.org/a.pdf#page=2" "https://" = true
  /\ _extract_url pdf_selector "href" fallback_referer None abs_doc
     = Ok "https://x.org/a.pdf#page=2".
Proof.
  split; [reflexivity|]. split; [simpl; auto|]. split; [reflexivity|].
  apply (extract_url_keeps_absolute pdf_selector "href" fallback_referer None abs_doc
           "https://x.org/a.pdf#page=2" "https://"); [reflexivity | simpl; auto | reflexivity].
Defined.

Lemma split_head_no_sep (s : string) (c : ascii) :
  PyStr.contains_char (PyStr.split_head s c) c = false.
Proof.
  induction s as [|d s IH]; simpl; auto.
  destruct (Ascii.eqb c d) eqn:E; simpl; auto. rewrite E, IH. reflexivity.
Qed.

Lemma split_head_prefix (s : string) (c : ascii) :
  PyStr.startswith s (PyStr.split_head s c) = true.
Proof.
  induction s as [|d s IH]; simpl; auto.
  destruct (Ascii.eqb c d); simpl; auto. rewrite Ascii.eqb_refl. exact IH.
Qed.

Lemma no_prefix_existsb (raw : string)
    (Hnp : forall p, In p UrlInformation.PROTOCOL_PREFIXES -> PyStr.contains raw p = false) :
  existsb (PyStr.contains raw) UrlInformation.PROTOCOL_PREFIXES = false.
Proof.
  destruct (existsb (PyStr.contains raw) UrlInformation.PROTOCOL_PREFIXES) eqn:E; auto.
  apply existsb_exists in E as [p [Hp Hc]]. rewrite (Hnp p Hp) in Hc. discriminate.
Qed.

(** C5: a raw value with no recognized protocol prefix is cut at its
    first '#' (the kept part has no '#' and starts the raw value); the
    kept part, when it starts with "//", is prefixed with the default
    scheme in place of the "//", and otherwise, when it starts with "/",
    is prefixed with the referer: the task's referer when it has one, the
    process-wide [DEFAULT_REFERER] when the task has none or there is no
    task.  The spec's examples hold. *)
Theorem resolve_url_relative (D : string) (task : option context) (raw : string)
    (Hnp : forall p, In p UrlInformation.PROTOCOL_PREFIXES -> PyStr.contains raw p = false) :
  PyStr.contains_char (PyStr.split_head raw "#") "#" = false
  /\ PyStr.startswith raw (PyStr.split_head raw "#") = true
  /\ (PyStr.startswith (PyStr.split_head raw "#") "//" = true ->
      resolve_url D task raw
      = UrlInformation.DEFAULT_PROTOCOL_PREFIX ++ PyStr.drop 2 (PyStr.split_head raw "#"))
  /\ (PyStr.startswith (PyStr.split_head raw "#") "//" = false ->
      PyStr.startswith (PyStr.split_head raw "#") "/" = true ->
      resolve_url D task raw = referer_of D task ++ PyStr.split_head raw "#")
  /\ (forall c r, task = Some c -> ctx_referer c = Some r -> referer_of D task = r)
  /\ ((forall c, task = Some c -> ctx_referer c = None) -> referer_of D task = D)
  /\ resolve_url D task "//example.com/x" = "https://example.com/x"
  /\ resolve_url D (Some (ctx_at (Some "https://m1.test"))) "/x" = "https://m1.test/x"
  /\ resolve_url D task "/x#frag" = referer_of D task ++ "/x".
Proof.
  pose proof (no_prefix_existsb raw Hnp) as Hex.
  split; [apply split_head_no_sep|].
  split; [apply split_head_prefix|].
  split; [intros H; unfold resolve_url; rewrite Hex, H; reflexivity|].
  split; [intros H1 H2; unfold resolve_url; rewrite Hex, H1, H2; reflexivity|].
  split; [intros c r -> Hr; simpl; rewrite Hr; reflexivity|].
  split.
  { intros Hn. destruct task as [c|]; simpl; auto. rewrite (Hn c eq_refl). reflexivity. }
  split; [reflexivity|]. split; reflexivity.
Qed.

Lemma resolve_url_relative_witness :
  resolve_url fallback_referer (Some (ctx_at (Some "https://m1.test"))) "/x#frag"
  = "https://m1.test/x".
Proof.
  destruct (resolve_url_relative fallback_referer (Some (ctx_at (Some "https://m1.test")))
              "/x#frag") as (_ & _ & _ & H & _).
  - intros p Hp. simpl in Hp.
    destruct Hp as [<- | [<- | []]]; reflexivity.
  - exact (H eq_refl eq_refl).
Defined.

(** C1 (as amended): [_extract_url] returns the raw value unchanged when
    it contains a recognized protocol prefix; otherwise, with the raw
    value cut at its first '#', the default scheme plus the rest when it
    starts with "//", the referer plus it when it starts with a single
    "/", and the cut value itself, unchanged and possibly relative, in
    every other case. *)
Theorem resolve_url_cases (D : string) (task : option context) (raw : string) :
  (existsb (PyStr.contains raw) UrlInformation.PROTOCOL_PREFIXES = true
   /\ resolve_url D task raw = raw)
  \/ (existsb (PyStr.contains raw) UrlInformation.PROTOCOL_PREFIXES = false
      /\ PyStr.startswith (PyStr.split_head raw "#") "//" = true
      /\ resolve_url D task raw
         = UrlInformation.DEFAULT_PROTOCOL_PREFIX ++ PyStr.drop 2 (PyStr.split_head raw "#"))
  \/ (existsb (PyStr.contains raw) UrlInformation.PROTOCOL_PREFIXES = false
      /\ PyStr.startswith (PyStr.split_head raw "#") "//" = false
      /\ PyStr.startswith (PyStr.split_head raw "#") "/" = true
      /\ resolve_url D task raw = referer_of D task ++ PyStr.split_head raw "#")
  \/ (existsb (PyStr.contains raw) UrlInformation.PROTOCOL_PREFIXES = false
      /\ PyStr.startswith (PyStr.split_head raw "#") "/" = false
      /\ resolve_url D task raw = PyStr.split_head raw "#").
Proof.
  unfold resolve_url.
  destruct (existsb (PyStr.contains raw) UrlInformation.PROTOCOL_PREFIXES) eqn:Hex;
    [left; auto|right].
  destruct (PyStr.startswith (PyStr.split_head raw "#") "//") eqn:H2; [left; auto|right].
  destruct (PyStr.startswith (PyStr.split_head raw "#") "/") eqn:H1; [left; auto|right; auto].
Qed.

Definition relative_doc : soup :=
  [mk_element "a" [("id", "pdf"); ("href", "a.pdf")] "PDF"].

(** C1 fails: the raw value "a.pdf" comes out of [_extract_url] as it is,
    relative, with no protocol prefix, no default scheme and no referer. *)
Lemma extract_url_relative_counterexample :
  _extract_url pdf_selector "href" fallback_referer
    (Some (ctx_at (Some "https://m1.test"))) relative_doc = Ok "a.pdf"
  /\ existsb (PyStr.contains "a.pdf") UrlInformation.PROTOCOL_PREFIXES = false
  /\ PyStr.startswith "a.pdf" UrlInformation.DEFAULT_PROTOCOL_PREFIX = false
  /\ PyStr.startswith "a.pdf" "https://m1.test" = false
  /\ PyStr.startswith "a.pdf" fallback_referer = false.
Proof. repeat split; reflexivity. Qed.

(** The [try] body of [extract] raises only the two structural failures. *)
Lemma extract_body_raises (sel : selector) (attr D : string) (task : option context)
    (doc : soup) (e : exn) :
  extract_body sel attr D task doc = Raise e ->
  (exists m, e = PdfTagNotFoundException m) \/ (exists m, e = PdfUrlNotFoundException m).
Proof.
  unfold extract_body, _extract_url, _extract_raw_url.
  destruct (select_one sel doc) as [el|]; simpl; [|intros H; injection H as <-; eauto].
  destruct (attrs_get (el_attrs el) attr); simpl; [discriminate|].
  intros H; injection H as <-; eauto.
Qed.

(** C2: when extraction fails on a task, [extract] raises an
    [ExtractException] and, before that, sets the status to
    ['extracting_failed'], records the error in the context and calls
    [increment_failed_times] on the task's referer: the health log grows
    by that call although the call raises. *)
Theorem extract_failure_records (sel : selector) (attr D : string) (c : context)
    (log : list health_call) (doc : soup) (e : exn)
    (Hfail : extract_body sel attr D (Some c) doc = Raise e) :
  extract sel attr D (Some c) log doc
  = (Raise (ExtractException ("Error occurs when extracting: " ++ exn_str e) e),
     Some (mk_context "extracting_failed" (ctx_referer c) (ctx_info c) (Some e)),
     log ++ [increment_failed_times (ctx_referer c)])%list.
Proof.
  unfold extract. rewrite Hfail. simpl.
  destruct (extract_body_raises sel attr D (Some c) doc e Hfail) as [[m ->]|[m ->]];
    reflexivity.
Qed.

Lemma extract_failure_records_witness :
  extract_body pdf_selector "href" fallback_referer (Some (ctx_at (Some "https://m1.test"))) []
  = Raise (PdfTagNotFoundException
             "No pdf tag was found in the given content with the selector: #pdf")
  /\ ctx_after (extract pdf_selector "href" fallback_referer
                  (Some (ctx_at (Some "https://m1.test"))) [] [])
     = Some (mk_context "extracting_failed" (Some "https://m1.test") None
               (Some (PdfTagNotFoundException
                        "No pdf tag was found in the given content with the selector: #pdf")))
  /\ log_after (extract pdf_selector "href" fallback_referer
                  (Some (ctx_at (Some "https://m1.test"))) [] [])
     = [increment_failed_times (Some "https://m1.test")].
Proof.
  assert (H : extract_body pdf_selector "href" fallback_referer
                (Some (ctx_at (Some "https://m1.test"))) []
              = Raise (PdfTagNotFoundException
                         "No pdf tag was found in the given content with the selector: #pdf"))
    by reflexivity.
  split; [exact H|].
  rewrite (extract_failure_records pdf_selector "href" fallback_referer
             (ctx_at (Some "https://m1.test")) [] [] _ H).
  split; reflexivity.
Defined.

(** C3: [extract] raises an [ExtractException] wrapping a
    [PdfTagNotFoundException] exactly when no element matches the
    selector, and one wrapping a [PdfUrlNotFoundException] exactly when
    the first matching element has no [pdf_tag_attr] attribute. *)
Theorem extract_structural_failures (sel : selector) (attr D : string)
    (task : option context) (log : list health_call) (doc : soup) :
  ((exists m m', outcome (extract sel attr D task log doc)
                 = Raise (ExtractException m (PdfTagNotFoundException m')))
   <-> select_one sel doc = None)
  /\ ((exists m m', outcome (extract sel attr D task log doc)
                    = Raise (ExtractException m (PdfUrlNotFoundException m')))
      <-> exists el, select_one sel doc = Some el /\ attrs_get (el_attrs el) attr = None).
Proof.
  unfold outcome, extract, extract_body, _extract_url, _extract_raw_url.
  destruct (select_one sel doc) as [el|] eqn:Hsel.
  - destruct (attrs_get (el_attrs el) attr) as [raw|] eqn:Hattr; simpl.
    + split; split.
      * intros (m & m' & H); discriminate.
      * discriminate.
      * intros (m & m' & H); discriminate.
      * intros (el' & Hel & Hnone). injection Hel as <-. congruence.
    + split; split.
      * intros (m & m' & H); injection H as _ H; discriminate.
      * discriminate.
      * intros _. exists el. auto.
      * intros _. eauto.
  - simpl. split; split.
    + intros _. reflexivity.
    + intros _. eauto.
    + intros (m & m' & H); injection H as _ H; discriminate.
    + intros (el' & Hel & _). discriminate.
Qed.

(** C8: when [extract] succeeds it returns the information, stores it
    under ['info'], leaves every other context field as it was and makes
    no call on the health service. *)
Theorem extract_success_frame (sel : selector) (attr D : string) (task : option context)
    (log : list health_call) (doc : soup) (info : PdfUrlTitleInformation)
    (Hok : outcome (extract sel attr D task log doc) = Ok info) :
  log_after (extract sel attr D task log doc) = log
  /\ ctx_after (extract sel attr D task log doc) = option_map (set_info info) task
  /\ (forall c, task = Some c ->
      exists c', ctx_after (extract sel attr D task log doc) = Some c'
                 /\ ctx_info c' = Some info
                 /\ ctx_status c' = ctx_status c
                 /\ ctx_referer c' = ctx_referer c
                 /\ ctx_error c' = ctx_error c).
Proof.
  revert Hok. unfold outcome, log_after, ctx_after, extract.
  destruct (extract_body sel attr D task doc) as [i|e] eqn:Hb; simpl.
  - intros H; injection H as ->.
    split; [reflexivity|]. split; [reflexivity|].
    intros c ->. exists (set_info info c). simpl. auto.
  - destruct (is_Exception e); simpl; discriminate.
Qed.

Definition good_doc : soup :=
  [mk_element "title" [] "Paper Title | Journal";
   mk_element "a" [("id", "pdf"); ("href", "/downloads/a.pdf")] "PDF"].

Lemma extract_success_frame_witness :
  outcome (extract pdf_selector "href" fallback_referer
             (Some (ctx_at (Some "https://m1.test"))) [] good_doc)
  = Ok (mk_info "https://m1.test/downloads/a.pdf" "Journal")
  /\ log_after (extract pdf_selector "href" fallback_referer
                  (Some (ctx_at (Some "https://m1.test"))) [] good_doc) = [].
Proof.
  assert (H : outcome (extract pdf_selector "href" fallback_referer
                         (Some (ctx_at (Some "https://m1.test"))) [] good_doc)
              = Ok (mk_info "https://m1.test/downloads/a.pdf" "Journal")) by reflexivity.
  split; [exact H|].
  exact (proj1 (extract_success_frame _ _ _ _ _ _ _ H)).
Defined.

(** C10 (as amended): the handler of [extract] wraps every exception that
    is an instance of [Exception] in an [ExtractException], whatever its
    type, with the same failure handling (status ['extracting_failed'],
    error stored, [increment_failed_times] on the referer when there is a
    task); [KeyboardInterrupt], [SystemExit] and [GeneratorExit], which
    derive from [BaseException] only, leave [extract] unwrapped, with the
    context and the health log untouched. *)
Theorem extract_handle_wraps_Exception (task : option context) (log : list health_call)
    (e : exn) :
  (is_Exception e = true ->
   extract_handle task log (Raise e)
   = (Raise (ExtractException ("Error occurs when extracting: " ++ exn_str e) e),
      option_map (fun c => mk_context "extracting_failed" (ctx_referer c) (ctx_info c) (Some e))
        task,
      match task with
      | Some c => (log ++ [increment_failed_times (ctx_referer c)])%list
      | None => log
      end))
  /\ (is_Exception e = false <-> e = KeyboardInterrupt \/ e = SystemExit \/ e = GeneratorExit)
  /\ (is_Exception e = false -> extract_handle task log (Raise e) = (Raise e, task, log)).
Proof.
  split; [|split].
  - intros H. unfold extract_handle. rewrite H. destruct task; reflexivity.
  - destruct e; simpl; split; intros H; try discriminate;
      try reflexivity; intuition discriminate.
  - intros H. unfold extract_handle. rewrite H. reflexivity.
Qed.

Lemma extract_handle_wraps_Exception_witness :
  extract_handle (Some (ctx_at (Some "https://m1.test"))) []
    (Raise (OtherException "TypeError" "bad operand"))
  = (Raise (ExtractException "Error occurs when extracting: bad operand"
              (OtherException "TypeError" "bad operand")),
     Some (mk_context "extracting_failed" (Some "https://m1.test") None
             (Some (OtherException "TypeError" "bad operand"))),
     [increment_failed_times (Some "https://m1.test")]).
Proof.
  exact (proj1 (extract_handle_wraps_Exception (Some (ctx_at (Some "https://m1.test"))) []
                  (OtherException "TypeError" "bad operand")) eq_refl).
Defined.

(** C10 fails: a [KeyboardInterrupt] raised while the page is being
    extracted leaves [extract] as it is, not wrapped in an
    [ExtractException], and without the failure handling. *)
Lemma extract_handle_keyboard_interrupt_counterexample :
  extract_handle (Some (ctx_at (Some "https://m1.test"))) [] (Raise KeyboardInterrupt)
  = (Raise KeyboardInterrupt, Some (ctx_at (Some "https://m1.test")), [])
  /\ (forall m e', outcome (extract_handle (Some (ctx_at (Some "https://m1.test"))) []
                              (Raise KeyboardInterrupt))
                   <> Raise (ExtractException m e')).
Proof.
  split; [reflexivity|]. intros m e' H. discriminate.
Qed.

(** A page with no title element and no h1, whose citation_title meta
    has empty content and whose og:title meta has a title. *)
Definition meta_doc : soup :=
  [mk_element "meta" [("name", "citation_title"); ("content", "")] "";
   mk_element "meta" [("property", "og:title"); ("content", "Real Title")] ""].

(** C6: on [meta_doc] the first three methods all give empty text, yet
    [_extract_title] does not reach og:title: it returns the empty title,
    since the og:title meta is looked up only when no citation_title meta
    tag exists at all. *)
Theorem extract_title_skips_og_title :
  soup_title meta_doc = None
  /\ find_name "h1" meta_doc = None
  /\ option_map (fun m => attrs_get (el_attrs m) "content")
       (find_attr "meta" "name" "citation_title" meta_doc) = Some (Some EmptyString)
  /\ option_map (fun m => attrs_get (el_attrs m) "content")
       (find_attr "meta" "property" "og:title" meta_doc) = Some (Some "Real Title")
  /\ _extract_title meta_doc = EmptyString.
Proof. repeat split; reflexivity. Qed.

(** C9: [get_default_referer] returns the hardcoded "https://sci-hub.se"
    when the configured chooser has no candidate, and otherwise the url of
    the mirror its [next()] returns. *)
Theorem default_referer_choice {C} `{ScihubUrlChooser C}
    (registry : list (string * C)) (fallback : C) (chooser_type : string) :
  (chooser_len (chooser_of registry fallback chooser_type) = 0 ->
   get_default_referer registry fallback chooser_type = Ok "https://sci-hub.se")
  /\ (0 < chooser_len (chooser_of registry fallback chooser_type) ->
      get_default_referer registry fallback chooser_type
      = map_result url (chooser_next (chooser_of registry fallback chooser_type))).
Proof.
  unfold get_default_referer. split; intros Hlen.
  - rewrite Hlen. reflexivity.
  - destruct (chooser_len (chooser_of registry fallback chooser_type)) eqn:E;
      [lia | reflexivity].
Qed.

(** A chooser over an ordered candidate list that hands out its head. *)
#[local] Instance list_chooser : ScihubUrlChooser (list ScihubUrl) := {
  chooser_len := @List.length ScihubUrl;
  chooser_next := fun l => match l with
                           | m :: _ => Ok m
                           | [] => Raise (OtherException "NoMirrorAvailable" EmptyString)
                           end
}.

Lemma default_referer_choice_witness :
  get_default_referer [("round_robin", [mk_scihub_url "https://m1.test" 3 0])] []
    "availability_first" = Ok "https://sci-hub.se"
  /\ get_default_referer [("round_robin", [mk_scihub_url "https://m1.test" 3 0])] []
       "round_robin" = Ok "https://m1.test".
Proof.
  split.
  - apply (proj1 (default_referer_choice
                    [("round_robin", [mk_scihub_url "https://m1.test" 3 0])] []
                    "availability_first")).
    reflexivity.
  - assert (Hlen : 0 < chooser_len (chooser_of
                                      [("round_robin", [mk_scihub_url "https://m1.test" 3 0])]
                                      [] "round_robin")) by (simpl; lia).
    rewrite (proj2 (default_referer_choice
                      [("round_robin", [mk_scihub_url "https://m1.test" 3 0])] []
                      "round_robin") Hlen).
    reflexivity.
Defined.

(** ** Further properties of the extractor *)

Definition starts_nonspace (s : string) : Prop :=
  match s with
  | EmptyString => True
  | String c _ => PyStr.isspace c = false
  end.

Lemma lstrip_starts_nonspace (s : string) : starts_nonspace (PyStr.lstrip s).
Proof.
  induction s as [|c s IH]; simpl; auto.
  destruct (PyStr.isspace c) eqn:E; simpl; auto.
Qed.

Lemma lstrip_id (s : string) : starts_nonspace s -> PyStr.lstrip s = s.
Proof. destruct s as [|c s]; simpl; auto. intros H. rewrite H. reflexivity. Qed.

Lemma rstrip_starts_nonspace (s : string) :
  starts_nonspace s -> starts_nonspace (PyStr.rstrip s).
Proof.
  destruct s as [|c s]; simpl; auto. intros H. rewrite H. simpl. exact H.
Qed.

Lemma rstrip_idem (s : string) : PyStr.rstrip (PyStr.rstrip s) = PyStr.rstrip s.
Proof.
  induction s as [|c s IH]; simpl; auto.
  destruct (PyStr.isspace c && String.eqb (PyStr.rstrip s) EmptyString) eqn:E;
    simpl; [reflexivity|].
  rewrite IH, E. reflexivity.
Qed.

Lemma strip_idem (s : string) : PyStr.strip (PyStr.strip s) = PyStr.strip s.
Proof.
  unfold PyStr.strip.
  rewrite (lstrip_id _ (rstrip_starts_nonspace _ (lstrip_starts_nonspace s))).
  apply rstrip_idem.
Qed.

Lemma rstrip_empty (s : string) : starts_nonspace s -> PyStr.rstrip s = EmptyString ->
  s = EmptyString.
Proof.
  destruct s as [|c s]; simpl; auto. intros Hc H. rewrite Hc in H. discriminate.
Qed.

Lemma lstrip_empty_all_space (s : string) :
  PyStr.lstrip s = EmptyString -> all_chars PyStr.isspace s = true.
Proof.
  induction s as [|c s IH]; simpl; auto.
  destruct (PyStr.isspace c) eqn:E; simpl; auto. discriminate.
Qed.

Lemma strip_empty_all_space (s : string) :
  PyStr.strip s = EmptyString -> all_chars PyStr.isspace s = true.
Proof.
  unfold PyStr.strip. intros H.
  apply lstrip_empty_all_space, rstrip_empty; [apply lstrip_starts_nonspace | exact H].
Qed.

Lemma all_space_no_char (s : string) (c : ascii) :
  PyStr.isspace c = false -> all_chars PyStr.isspace s = true ->
  PyStr.contains_char s c = false.
Proof.
  intros Hc. induction s as [|d s IH]; simpl; auto.
  intros H. apply andb_prop in H as [Hd Hs].
  rewrite (IH Hs), orb_false_r.
  destruct (Ascii.eqb c d) eqn:E; auto.
  apply Ascii.eqb_eq in E. subst. congruence.
Qed.

Lemma clean_title_eq (title : string) :
  _clean_title title = PyStr.strip (PyStr.take 200 (PyStr.sub_chars hostile " " title)).
Proof.
  unfold _clean_title. destruct (PyStr.truthy title) eqn:E; simpl; [reflexivity|].
  rewrite (truthy_false _ E). reflexivity.
Qed.

Lemma clean_title_bounds (title : string) :
  String.length (_clean_title title) <= 200
  /\ all_chars (fun c => negb (hostile c)) (_clean_title title) = true.
Proof.
  rewrite clean_title_eq. split.
  - pose proof (length_strip (PyStr.take 200 (PyStr.sub_chars hostile " " title))).
    pose proof (length_take 200 (PyStr.sub_chars hostile " " title)). lia.
  - unfold PyStr.strip. apply all_chars_rstrip, all_chars_lstrip, all_chars_take.
    apply sub_chars_clears.
Qed.

Lemma sub_chars_id (s : string) :
  all_chars (fun c => negb (hostile c)) s = true -> PyStr.sub_chars hostile " " s = s.
Proof.
  induction s as [|c s IH]; simpl; auto. intros H.
  apply andb_prop in H as [Hc Hs]. rewrite (IH Hs).
  destruct (hostile c); [discriminate|reflexivity].
Qed.

Lemma take_id (n : nat) (s : string) : String.length s <= n -> PyStr.take n s = s.
Proof.
  revert s. induction n as [|n IH]; intros [|c s] H; simpl in *; auto; try lia.
  rewrite IH; [reflexivity|lia].
Qed.

(** [_clean_title] is idempotent: cleaning a cleaned title gives it back. *)
Theorem clean_title_idempotent (title : string) :
  _clean_title (_clean_title title) = _clean_title title.
Proof.
  destruct (clean_title_bounds title) as [Hlen Hall].
  rewrite (clean_title_eq (_clean_title title)).
  rewrite (sub_chars_id _ Hall), (take_id _ _ Hlen).
  rewrite clean_title_eq. apply strip_idem.
Qed.

(** The title of [_extract_title] has at most 200 characters and none of
    / \ : * ? double-quote < > |, whatever the page. *)
Theorem extract_title_bounds (doc : soup) :
  String.length (_extract_title doc) <= 200
  /\ (forall n c, String.get n (_extract_title doc) = Some c -> hostile c = false).
Proof.
  unfold _extract_title.
  match goal with |- context [_clean_title ?t] => destruct (clean_title_bounds t) as [Hl Ha] end.
  split; [exact Hl|].
  intros n c Hget. apply (all_chars_get _ _ _ _ Ha) in Hget.
  destruct (hostile c); [discriminate|reflexivity].
Qed.

(** With a title element whose text contains '|' and whose segment after
    the first '|' is not blank, [_extract_title] is that segment cleaned,
    whatever h1 and meta elements the page has. *)
Theorem extract_title_pipe_segment (doc : soup) (t : element)
    (Ht : soup_title doc = Some t) (Hpipe : PyStr.contains_char (el_text t) "|" = true)
    (Hseg : PyStr.truthy (PyStr.strip (nth 1 (PyStr.split (el_text t) "|") EmptyString)) = true) :
  _extract_title doc = _clean_title (nth 1 (PyStr.split (el_text t) "|") EmptyString).
Proof.
  assert (Hlen : Nat.ltb 0 (String.length (el_text t)) = true).
  { destruct (el_text t); [discriminate | reflexivity]. }
  unfold _extract_title. rewrite Ht, Hlen, Hpipe. cbv zeta. repeat (rewrite Hseg; cbn [negb]). reflexivity.
Qed.

Definition pipe_doc : soup :=
  [mk_element "title" [] "Foo Bar | Great Journal";
   mk_element "h1" [] "Another Heading";
   mk_element "meta" [("name", "citation_title"); ("content", "Citation")] ""].

Lemma extract_title_pipe_segment_witness :
  _extract_title pipe_doc = "Great Journal".
Proof.
  rewrite (extract_title_pipe_segment pipe_doc (mk_element "title" [] "Foo Bar | Great Journal"));
    reflexivity.
Defined.

(** With a title element whose text has no '|' and is not blank,
    [_extract_title] is that whole text cleaned. *)
Theorem extract_title_whole_text (doc : soup) (t : element)
    (Ht : soup_title doc = Some t) (Hpipe : PyStr.contains_char (el_text t) "|" = false)
    (Hnb : PyStr.truthy (PyStr.strip (el_text t)) = true) :
  _extract_title doc = _clean_title (el_text t).
Proof.
  assert (Hlen : Nat.ltb 0 (String.length (el_text t)) = true).
  { destruct (el_text t); [discriminate | reflexivity]. }
  unfold _extract_title. rewrite Ht, Hlen, Hpipe. cbv zeta. repeat (rewrite Hnb; cbn [negb]). reflexivity.
Qed.

Lemma extract_title_whole_text_witness :
  _extract_title [mk_element "title" [] " A: B "; mk_element "h1" [] "H"] = "A  B".
Proof.
  rewrite (extract_title_whole_text _ (mk_element "title" [] " A: B ")); reflexivity.
Defined.

(** When the page has no title element, or one whose text is blank, the
    first h1 element, if its text is not blank, gives the title. *)
Theorem extract_title_h1_fallback (doc : soup) (h : element)
    (Hblank : match soup_title doc with
              | None => True
              | Some t => PyStr.strip (el_text t) = EmptyString
              end)
    (Hh : find_name "h1" doc = Some h) (Hnb : PyStr.truthy (PyStr.strip (el_text h)) = true) :
  _extract_title doc = _clean_title (el_text h).
Proof.
  unfold _extract_title. destruct (soup_title doc) as [t|] eqn:Ht.
  - assert (Hp : PyStr.contains_char (el_text t) "|" = false).
    { apply all_space_no_char; [reflexivity|]. apply strip_empty_all_space. exact Hblank. }
    rewrite Hp. cbv zeta.
    replace (PyStr.truthy
               (PyStr.strip (if Nat.ltb 0 (String.length (el_text t)) then el_text t
                             else EmptyString))) with false
      by (destruct (Nat.ltb 0 (String.length (el_text t))); rewrite ?Hblank; reflexivity).
    simpl. rewrite Hh, Hnb. reflexivity.
  - cbv zeta. simpl. rewrite Hh, Hnb. reflexivity.
Qed.

Lemma extract_title_h1_fallback_witness :
  _extract_title [mk_element "title" [] EmptyString; mk_element "h1" [] "Fallback Title"]
  = "Fallback Title".
Proof.
  rewrite (extract_title_h1_fallback _ (mk_element "h1" [] "Fallback Title")); reflexivity.
Defined.

Lemma startswith_app (s w p : string) :
  PyStr.startswith s p = true -> PyStr.startswith (s ++ w) p = true.
Proof.
  revert s. induction p as [|c p IH]; intros s H.
  - destruct (s ++ w); reflexivity.
  - destruct s as [|d s]; simpl in H; [discriminate|]. simpl.
    apply andb_prop in H as [Hc Hs]. rewrite Hc. simpl. auto.
Qed.

Lemma contains_app (s w p : string) :
  PyStr.contains s p = true -> PyStr.contains (s ++ w) p = true.
Proof.
  induction s as [|c s IH]; intros H.
  - destruct p; [destruct w; reflexivity | discriminate].
  - change (PyStr.contains (String c s) p) with
      (PyStr.startswith (String c s) p || PyStr.contains s p) in H.
    change (PyStr.contains (String c (s ++ w)) p) with
      (PyStr.startswith (String c (s ++ w)) p || PyStr.contains (s ++ w) p).
    apply orb_true_iff in H as [H|H]; apply orb_true_iff.
    + left. exact (startswith_app (String c s) w p H).
    + right. auto.
Qed.

Lemma startswith_split (s u : string) :
  PyStr.startswith s u = true -> exists w, s = u ++ w.
Proof.
  revert s. induction u as [|c u IH]; intros s H; [exists s; reflexivity|].
  destruct s as [|d s]; [discriminate|]. simpl in H.
  apply andb_prop in H as [Hc Hs]. apply Ascii.eqb_eq in Hc. subst d.
  destruct (IH s Hs) as [w ->]. exists w. reflexivity.
Qed.

Lemma split_head_id (s : string) (c : ascii) :
  PyStr.contains_char s c = false -> PyStr.split_head s c = s.
Proof.
  induction s as [|d s IH]; simpl; auto. intros H.
  apply orb_false_iff in H as [Hd Hs]. rewrite Hd, (IH Hs). reflexivity.
Qed.

Lemma startswith_slashes (u : string) :
  PyStr.startswith u "//" = true -> PyStr.startswith u "/" = true.
Proof.
  destruct u as [|c u]; simpl; [discriminate|].
  intros H. apply andb_prop in H as [H _]. rewrite H. destruct u; reflexivity.
Qed.

Lemma existsb_contains_app (s w : string) :
  existsb (PyStr.contains s) UrlInformation.PROTOCOL_PREFIXES = true ->
  existsb (PyStr.contains (s ++ w)) UrlInformation.PROTOCOL_PREFIXES = true.
Proof.
  intros H. apply existsb_exists in H as [p [Hp Hc]].
  apply existsb_exists. exists p. split; [exact Hp | apply contains_app; exact Hc].
Qed.

(** The four shapes of a resolved URL. *)
Lemma resolve_url_shape (D : string) (task : option context) (raw : string) :
  (existsb (PyStr.contains raw) UrlInformation.PROTOCOL_PREFIXES = true
   /\ resolve_url D task raw = raw)
  \/ (existsb (PyStr.contains raw) UrlInformation.PROTOCOL_PREFIXES = false
      /\ PyStr.startswith (PyStr.split_head raw "#") "//" = true
      /\ resolve_url D task raw
         = UrlInformation.DEFAULT_PROTOCOL_PREFIX ++ PyStr.drop 2 (PyStr.split_head raw "#"))
  \/ (existsb (PyStr.contains raw) UrlInformation.PROTOCOL_PREFIXES = false
      /\ PyStr.startswith (PyStr.split_head raw "#") "//" = false
      /\ PyStr.startswith (PyStr.split_head raw "#") "/" = true
      /\ resolve_url D task raw = referer_of D task ++ PyStr.split_head raw "#")
  \/ (existsb (PyStr.contains raw) UrlInformation.PROTOCOL_PREFIXES = false
      /\ PyStr.startswith (PyStr.split_head raw "#") "/" = false
      /\ resolve_url D task raw = PyStr.split_head raw "#").
Proof.
  unfold resolve_url.
  destruct (existsb (PyStr.contains raw) UrlInformation.PROTOCOL_PREFIXES);
    [left; auto|right].
  destruct (PyStr.startswith (PyStr.split_head raw "#") "//"); [left; auto|right].
  destruct (PyStr.startswith (PyStr.split_head raw "#") "/"); [left; auto|right; auto].
Qed.

(** [_extract_url]'s resolution is idempotent when the referer in use
    carries a recognized protocol prefix: resolving a resolved URL gives
    it back. *)
Theorem resolve_url_idempotent (D : string) (task : option context) (raw : string)
    (Href : existsb (PyStr.contains (referer_of D task)) UrlInformation.PROTOCOL_PREFIXES
            = true) :
  resolve_url D task (resolve_url D task raw) = resolve_url D task raw.
Proof.
  destruct (resolve_url_shape D task raw)
    as [[Hex Hr] | [[Hex [H2 Hr]] | [[Hex [H2 [H1 Hr]]] | [Hex [H1 Hr]]]]];
    rewrite Hr; unfold resolve_url at 1.
  - rewrite Hex. reflexivity.
  - rewrite (existsb_contains_app UrlInformation.DEFAULT_PROTOCOL_PREFIX _ eq_refl).
    reflexivity.
  - rewrite (existsb_contains_app _ _ Href). reflexivity.
  - set (u := PyStr.split_head raw "#") in *.
    assert (Hu : existsb (PyStr.contains u) UrlInformation.PROTOCOL_PREFIXES = false).
    { destruct (existsb (PyStr.contains u) UrlInformation.PROTOCOL_PREFIXES) eqn:E;
        [|reflexivity].
      destruct (startswith_split raw u (split_head_prefix raw "#")) as [w Hw].
      rewrite <- Hex, Hw. symmetry. exact (existsb_contains_app u w E). }
    rewrite Hu. cbv zeta.
    rewrite (split_head_id u "#" (split_head_no_sep raw "#")).
    destruct (PyStr.startswith u "//") eqn:H2.
    + rewrite (startswith_slashes u H2) in H1. discriminate.
    + rewrite H1. reflexivity.
Qed.

Lemma resolve_url_idempotent_witness :
  resolve_url fallback_referer None (resolve_url fallback_referer None "/a.pdf#x")
  = "https://sci-hub.se/a.pdf".
Proof.
  rewrite (resolve_url_idempotent fallback_referer None "/a.pdf#x"); reflexivity.
Defined.

Lemma contains_char_app (s w : string) (c : ascii) :
  PyStr.contains_char (s ++ w) c = PyStr.contains_char s c || PyStr.contains_char w c.
Proof. induction s as [|d s IH]; simpl; auto. rewrite IH, orb_assoc. reflexivity. Qed.

Lemma contains_char_drop (n : nat) (s : string) (c : ascii) :
  PyStr.contains_char s c = false -> PyStr.contains_char (PyStr.drop n s) c = false.
Proof.
  revert s. induction n as [|n IH]; intros [|d s] H; simpl in *; auto.
  apply orb_false_iff in H as [_ H]. auto.
Qed.

(** A raw value with no recognized protocol prefix comes out of the
    resolution without any '#', provided the referer in use has none. *)
Theorem resolve_url_drops_fragment (D : string) (task : option context) (raw : string)
    (Hnp : existsb (PyStr.contains raw) UrlInformation.PROTOCOL_PREFIXES = false)
    (Href : PyStr.contains_char (referer_of D task) "#" = false) :
  PyStr.contains_char (resolve_url D task raw) "#" = false.
Proof.
  pose proof (split_head_no_sep raw "#") as Hu.
  unfold resolve_url. rewrite Hnp. cbv zeta.
  destruct (PyStr.startswith (PyStr.split_head raw "#") "//").
  - rewrite contains_char_app. apply orb_false_iff. split; [reflexivity|].
    apply contains_char_drop. exact Hu.
  - destruct (PyStr.startswith (PyStr.split_head raw "#") "/"); [|exact Hu].
    rewrite contains_char_app, Href, Hu. reflexivity.
Qed.

Lemma resolve_url_drops_fragment_witness :
  PyStr.contains_char (resolve_url fallback_referer None "//h.org/a.pdf#p=2") "#" = false.
Proof. apply resolve_url_drops_fragment; reflexivity. Defined.

(** [extract] never records a success on the health service: its only
    possible call is one [increment_failed_times] on the task's referer,
    and without a task it makes no call at all. *)
Theorem extract_health_calls (sel : selector) (attr D : string) (task : option context)
    (log : list health_call) (doc : soup) :
  (log_after (extract sel attr D task log doc) = log
   \/ exists c, task = Some c
                /\ log_after (extract sel attr D task log doc)
                   = (log ++ [increment_failed_times (ctx_referer c)])%list)
  /\ (task = None -> log_after (extract sel attr D task log doc) = log).
Proof.
  unfold log_after, extract, extract_handle.
  destruct (extract_body sel attr D task doc) as [i|e]; simpl; [auto|].
  destruct (is_Exception e); simpl; [|auto].
  destruct task as [c|]; simpl; split; eauto; discriminate.
Qed.




(** When the first element matching the selector carries the link
    attribute, [extract] succeeds with the resolved link and the extracted
    title. *)
Theorem extract_success_value (sel : selector) (attr D : string) (task : option context)
    (log : list health_call) (doc : soup) (el : element) (raw : string)
    (Hsel : select_one sel doc = Some el) (Hattr : attrs_get (el_attrs el) attr = Some raw) :
  outcome (extract sel attr D task log doc)
  = Ok (mk_info (resolve_url D task raw) (_extract_title doc)).
Proof.
  unfold outcome, extract, extract_body, _extract_url, _extract_raw_url.
  rewrite Hsel, Hattr. reflexivity.
Qed.

Lemma extract_success_value_witness :
  outcome (extract pdf_selector "href" fallback_referer None [] good_doc)
  = Ok (mk_info "https://sci-hub.se/downloads/a.pdf" "Journal").
Proof.
  rewrite (extract_success_value pdf_selector "href" fallback_referer None [] good_doc
             (mk_element "a" [("id", "pdf"); ("href", "/downloads/a.pdf")] "PDF")
             "/downloads/a.pdf"); reflexivity.
Defined.

(** ** Properties of the command line *)

Import Cli.







Lemma dict_set_get (d : dict) (k v : string) : attrs_get (dict_set d k v) k = Some v.
Proof.
  induction d as [|[k' v'] d IH]; simpl; [rewrite String.eqb_refl; reflexivity|].
  destruct (String.eqb k k') eqn:E; simpl; rewrite E; auto.
Qed.

Lemma dict_set_get_other (d : dict) (k k2 v : string) :
  k2 <> k -> attrs_get (dict_set d k v) k2 = attrs_get d k2.
Proof.
  intros Hne. induction d as [|[k' v'] d IH]; simpl.
  - apply String.eqb_neq in Hne. rewrite Hne. reflexivity.
  - destruct (String.eqb k k') eqn:E; simpl; [|rewrite IH; reflexivity].
    apply String.eqb_eq in E. subst k'.
    apply String.eqb_neq in Hne. rewrite Hne. reflexivity.
Qed.

Lemma dict_set_keys (d : dict) (k v k2 : string) :
  In k2 (map fst (dict_set d k v)) <-> k2 = k \/ In k2 (map fst d).
Proof.
  induction d as [|[k' v'] d IH]; simpl; [intuition congruence|].
  destruct (String.eqb k k') eqn:E; simpl.
  - apply String.eqb_eq in E. subst. intuition congruence.
  - rewrite IH. intuition congruence.
Qed.

Lemma dict_set_nodup (d : dict) (k v : string) :
  NoDup (map fst d) -> NoDup (map fst (dict_set d k v)).
Proof.
  induction d as [|[k' v'] d IH]; simpl; intros H.
  - constructor; [auto | constructor].
  - inversion H as [|x l Hnin Hnd]; subst.
    destruct (String.eqb k k') eqn:E; simpl; constructor; auto.
    rewrite dict_set_keys. intros [Hk|Hin]; [|exact (Hnin Hin)].
    subst. rewrite String.eqb_refl in E. discriminate.
Qed.

Lemma split_no_sep (s : string) (c : ascii) :
  PyStr.contains_char s c = false -> PyStr.split s c = [s].
Proof.
  induction s as [|d s IH]; simpl; auto. intros H.
  apply orb_false_iff in H as [Hd Hs]. rewrite Hd, (IH Hs). reflexivity.
Qed.

(** The proxies of [download]: the configured http and https proxies,
    under their scheme, overridden by [--proxy SCHEME=ADDRESS], where only
    the text between the first and a second '=' is the address; a
    [--proxy] without '=' is ignored.  No scheme appears twice. *)
Theorem build_proxies_override (cfg_http cfg_https : option string) :
  attrs_get (build_proxies cfg_http cfg_https None) "http" = cfg_http
  /\ attrs_get (build_proxies cfg_http cfg_https None) "https" = cfg_https
  /\ (forall p, PyStr.contains_char p "=" = false ->
      build_proxies cfg_http cfg_https (Some p) = build_proxies cfg_http cfg_https None)
  /\ (forall p scheme address rest, PyStr.split p "=" = scheme :: address :: rest ->
      attrs_get (build_proxies cfg_http cfg_https (Some p)) scheme = Some address
      /\ forall k, k <> scheme ->
         attrs_get (build_proxies cfg_http cfg_https (Some p)) k
         = attrs_get (build_proxies cfg_http cfg_https None) k)
  /\ (forall proxy, NoDup (map fst (build_proxies cfg_http cfg_https proxy))).
Proof.
  assert (Hnd0 : NoDup (map fst (build_proxies cfg_http cfg_https None))).
  { unfold build_proxies.
    destruct cfg_http, cfg_https; simpl; repeat constructor; simpl; intuition discriminate. }
  split; [|split; [|split; [|split]]].
  - unfold build_proxies. destruct cfg_http, cfg_https; reflexivity.
  - unfold build_proxies. destruct cfg_http, cfg_https; reflexivity.
  - intros p Hp. unfold build_proxies at 1. rewrite Hp. reflexivity.
  - intros p scheme address rest Hs.
    assert (Hp : PyStr.contains_char p "=" = true).
    { destruct (PyStr.contains_char p "=") eqn:E; [reflexivity|].
      rewrite (split_no_sep p "=" E) in Hs. discriminate. }
    unfold build_proxies at 1 2. rewrite Hp, Hs. cbv zeta.
    split; [apply dict_set_get|].
    intros k Hk. apply dict_set_get_other. exact Hk.
  - intros [p|]; [|exact Hnd0].
    unfold build_proxies. cbv zeta.
    destruct (PyStr.contains_char p "="); [|exact Hnd0].
    destruct (PyStr.split p "=") as [|scheme [|address rest]]; try exact Hnd0.
    apply dict_set_nodup. exact Hnd0.
Qed.

Lemma build_proxies_override_witness :
  attrs_get (build_proxies (Some "http://cfg:1") None (Some "http=http://127.0.0.1:7890=x"))
    "http" = Some "http://127.0.0.1:7890"
  /\ build_proxies (Some "http://cfg:1") None (Some "socks5")
     = build_proxies (Some "http://cfg:1") None None.
Proof.
  destruct (build_proxies_override (Some "http://cfg:1") None) as (_ & _ & H3 & H4 & _).
  split.
  - exact (proj1 (H4 "http=http://127.0.0.1:7890=x" "http" "http://127.0.0.1:7890" ["x"]
                    eq_refl)).
  - exact (H3 "socks5" eq_refl).
Defined.

Lemma run_one_ok (n : nat) (b b1 : batch) (tk : task_kwargs) (o : run_outcome) :
  run_one n b tk o = Ok b1 ->
  total_attempted b1 = S (total_attempted b)
  /\ (run_failed o = true -> successful_downloads b1 = successful_downloads b
                             /\ failed_sources b1 = (failed_sources b ++ [source_keyword tk])%list)
  /\ (run_failed o = false -> successful_downloads b1 = S (successful_downloads b)
                              /\ failed_sources b1 = failed_sources b)
  /\ progress b1 = (if logs_progress n (S (total_attempted b))
                    then (progress b ++ [(successful_downloads b1, S (total_attempted b))])%list
                    else progress b).
Proof.
  unfold run_one. destruct o as [st|e st err].
  - assert (Hf : run_failed (Finished st)
                 = match st with Some s => existsb (String.eqb s) failed_statuses
                                 | None => false end) by (destruct st; reflexivity).
    rewrite <- Hf.
    destruct (run_failed (Finished st)); simpl; intros H; injection H as <-; simpl;
      repeat split; auto; discriminate.
  - destruct (is_Exception e); [|discriminate].
    destruct st, err; try discriminate. simpl. intros H; injection H as <-; simpl.
    repeat split; auto; discriminate.
Qed.

Lemma run_from_ok (n : nat) (runs : list (task_kwargs * run_outcome)) :
  forall b b', run_from n b runs = Ok b' ->
  total_attempted b' = total_attempted b + length runs
  /\ successful_downloads b' + length (failed_sources b')
     = successful_downloads b + length (failed_sources b) + length runs
  /\ failed_sources b'
     = (failed_sources b
        ++ map (fun r => source_keyword (fst r)) (filter (fun r => run_failed (snd r)) runs))%list
  /\ map snd (progress b')
     = (map snd (progress b)
        ++ filter (logs_progress n) (seq (S (total_attempted b)) (length runs)))%list
  /\ (successful_downloads b <= total_attempted b ->
      Forall (fun p => fst p <= snd p) (progress b) ->
      successful_downloads b' <= total_attempted b'
      /\ Forall (fun p => fst p <= snd p) (progress b'))
  /\ (runs <> [] -> total_attempted b + length runs = n ->
      last (progress b') (0, 0) = (successful_downloads b', n)).
Proof.
  induction runs as [|[tk o] runs IH]; intros b b' H.
  - simpl in H. injection H as <-. simpl. rewrite !Nat.add_0_r, !app_nil_r.
    repeat split; auto. congruence.
  - simpl in H. destruct (run_one n b tk o) as [b1|e] eqn:H1; [|discriminate]. simpl in H.
    destruct (run_one_ok n b b1 tk o H1) as (Ht & Hfl & Hok & Hp).
    destruct (IH b1 b' H) as (Ht' & Hc' & Hf' & Hp' & Hinv' & Hlast').
    assert (Hcount : successful_downloads b1 + length (failed_sources b1)
                     = S (successful_downloads b + length (failed_sources b))).
    { destruct (run_failed o) eqn:E.
      - destruct (Hfl eq_refl) as [-> ->]. rewrite length_app. simpl. lia.
      - destruct (Hok eq_refl) as [-> ->]. lia. }
    split; [simpl; lia|].
    split; [simpl; lia|].
    split.
    { rewrite Hf'. simpl. destruct (run_failed o) eqn:E.
      - destruct (Hfl eq_refl) as [_ ->]. rewrite <- app_assoc. reflexivity.
      - destruct (Hok eq_refl) as [_ ->]. reflexivity. }
    split.
    { rewrite Hp', Hp, Ht. simpl.
      destruct (logs_progress n (S (total_attempted b))); simpl;
        [rewrite map_app, <- app_assoc; reflexivity | reflexivity]. }
    split.
    { intros Hle Hall. apply Hinv'.
      - rewrite Ht. destruct (run_failed o) eqn:E;
          [destruct (Hfl eq_refl) as [-> _] | destruct (Hok eq_refl) as [-> _]]; lia.
      - rewrite Hp. destruct (logs_progress n (S (total_attempted b))); [|exact Hall].
        apply Forall_app. split; [exact Hall|]. constructor; [|constructor]. simpl.
        destruct (run_failed o) eqn:E;
          [destruct (Hfl eq_refl) as [-> _] | destruct (Hok eq_refl) as [-> _]]; lia. }
    intros _ Hn. destruct runs as [|r runs'].
    + simpl in H. injection H as <-. rewrite Hp.
      simpl in Hn. replace (logs_progress n (S (total_attempted b))) with true.
      * rewrite last_last. f_equal. lia.
      * unfold logs_progress. replace (Nat.eqb (S (total_attempted b)) n) with true
          by (symmetry; apply Nat.eqb_eq; lia). symmetry. apply orb_true_r.
    + apply Hlast'; [discriminate|]. rewrite Ht. simpl in Hn |- *. lia.
Qed.

(** The run loop of [download], when it finishes: every task is
    attempted once, successes plus recorded failures make the number of
    tasks, the failed sources are the keywords of the tasks that ended in
    a failure status or raised, in task order, progress is logged after
    the attempts that are a multiple of 5 short of the last and after the
    last one, which reports the final counts, and no log shows more
    successes than attempts. *)
Theorem run_tasks_accounting (runs : list (task_kwargs * run_outcome)) (b : batch)
    (Hrun : run_tasks runs = Ok b) :
  total_attempted b = length runs
  /\ successful_downloads b + length (failed_sources b) = length runs
  /\ failed_sources b
     = map (fun r => source_keyword (fst r)) (filter (fun r => run_failed (snd r)) runs)
  /\ map snd (progress b) = filter (logs_progress (length runs)) (seq 1 (length runs))
  /\ Forall (fun p => fst p <= snd p) (progress b)
  /\ (runs <> [] -> last (progress b) (0, 0) = (successful_downloads b, length runs)).
Proof.
  destruct (run_from_ok (length runs) runs batch0 b Hrun) as (Ht & Hc & Hf & Hp & Hinv & Hl).
  simpl in *. repeat split; auto.
  apply Hinv; [lia | constructor].
Qed.

Definition kw_run (d : string) (o : run_outcome) : task_kwargs * run_outcome :=
  (mk_task_kwargs (KwStr d) "doi" None None [], o).

Definition sample_runs : list (task_kwargs * run_outcome) :=
  map (fun i => kw_run "10.1/x" (if Nat.eqb (Nat.modulo i 3) 0
                                 then Finished (Some "extracting_failed")
                                 else Finished (Some "done"))) (seq 0 7).

Lemma run_tasks_accounting_witness :
  run_tasks sample_runs
  = Ok (mk_batch 7 4 [KwStr "10.1/x"; KwStr "10.1/x"; KwStr "10.1/x"] [(3, 5); (4, 7)])
  /\ last [(3, 5); (4, 7)] (0, 0) = (4, 7).
Proof.
  assert (H : run_tasks sample_runs
              = Ok (mk_batch 7 4 [KwStr "10.1/x"; KwStr "10.1/x"; KwStr "10.1/x"]
                      [(3, 5); (4, 7)])) by (vm_compute; reflexivity).
  split; [exact H|].
  destruct (run_tasks_accounting sample_runs _ H) as (_ & _ & _ & _ & _ & Hl).
  exact (Hl ltac:(discriminate)).
Defined.




Lemma rfind_go_some (c : ascii) (s : string) :
  forall i acc k, rfind_go c s i acc = Some k ->
  (i <= k /\ String.get (k - i) s = Some c
   /\ forall j, k - i < j -> String.get j s <> Some c)
  \/ (acc = Some k /\ forall j, String.get j s <> Some c).
Proof.
  induction s as [|d s IH]; intros i acc k H; simpl in H.
  - right. split; [exact H | intros j; destruct j; discriminate].
  - destruct (IH _ _ _ H) as [(Hik & Hget & Hlast) | (Hacc & Hnone)].
    + left. split; [lia|].
      replace (k - i) with (S (k - S i)) by lia. split; [exact Hget|].
      intros [|j] Hj; [lia|]. simpl. apply Hlast. lia.
    + destruct (Ascii.eqb c d) eqn:E.
      * apply Ascii.eqb_eq in E. subst d. injection Hacc as <-.
        left. rewrite Nat.sub_diag. split; [lia|]. split; [reflexivity|].
        intros [|j] Hj; [lia|]. simpl. apply Hnone.
      * right. split; [exact Hacc|]. intros [|j]; simpl; [|apply Hnone].
        intros Hd. injection Hd as ->. rewrite Ascii.eqb_refl in E. discriminate.
Qed.

Lemma rfind_go_acc (c : ascii) (s : string) :
  forall i k, rfind_go c s i (Some k) <> None.
Proof.
  induction s as [|d s IH]; intros i k; simpl; [discriminate|].
  destruct (Ascii.eqb c d); apply IH.
Qed.

Lemma rfind_go_none (c : ascii) (s : string) :
  forall i acc, rfind_go c s i acc = None -> forall j, String.get j s <> Some c.
Proof.
  induction s as [|d s IH]; intros i acc H j; simpl in H; [destruct j; discriminate|].
  destruct (Ascii.eqb c d) eqn:E; [exact (False_ind _ (rfind_go_acc c s _ _ H))|].
  destruct j as [|j]; simpl; [|exact (IH _ _ H j)].
  intros Hd. injection Hd as ->. rewrite Ascii.eqb_refl in E. discriminate.
Qed.

Lemma rfind_some (c : ascii) (s : string) (k : nat) :
  rfind c s = Some k ->
  String.get k s = Some c /\ forall j, k < j -> String.get j s <> Some c.
Proof.
  unfold rfind. intros H.
  destruct (rfind_go_some c s 0 None k H) as [(_ & Hg & Hl) | (Hacc & _)]; [|discriminate].
  rewrite Nat.sub_0_r in Hg, Hl. auto.
Qed.

Lemma get_drop (n j : nat) (s : string) : String.get j (PyStr.drop n s) = String.get (n + j) s.
Proof.
  revert s. induction n as [|n IH]; intros [|c s]; simpl; auto; destruct j; reflexivity.
Qed.

Lemma take_drop (n : nat) (s : string) : (PyStr.take n s ++ PyStr.drop n s)%string = s.
Proof.
  revert s. induction n as [|n IH]; intros [|c s]; simpl; auto. rewrite IH. reflexivity.
Qed.

Lemma append_empty (a : string) : (a ++ EmptyString)%string = a.
Proof. induction a as [|c a IH]; simpl; [reflexivity | rewrite IH; reflexivity]. Qed.

Lemma length_append (a b : string) :
  String.length (a ++ b) = String.length a + String.length b.
Proof. induction a; simpl; auto. Qed.

Lemma splitext_cases (p : string) :
  splitext p = (p, EmptyString)
  \/ exists d, splitext p = (PyStr.take d p, PyStr.drop d p)
               /\ String.get d p = Some "."%char
               /\ forall j, d < j -> String.get j p <> Some "/"%char.
Proof.
  unfold splitext.
  destruct (rfind "." p) as [d|] eqn:Hd; [|left; reflexivity].
  destruct (Nat.leb _ d && _) eqn:E; [|left; reflexivity].
  right. exists d. split; [reflexivity|].
  apply andb_prop in E as [Hle _]. apply Nat.leb_le in Hle.
  split; [exact (proj1 (rfind_some _ _ _ Hd))|].
  intros j Hj. destruct (rfind "/" p) as [i|] eqn:Hs.
  - apply (proj2 (rfind_some _ _ _ Hs)). lia.
  - exact (rfind_go_none _ _ _ _ Hs j).
Qed.

(** [os.path.splitext] splits a path into a base and an extension that
    put back together give the path; the extension is empty or a '.'
    followed by no '/'.  So the [_failed] file of [download] is the input
    path with "_failed" inserted in its file name before the extension:
    it is never the input file itself. *)
Theorem failed_file_name_spec (input_file : string) :
  (fst (splitext input_file) ++ snd (splitext input_file))%string = input_file
  /\ failed_file_name input_file
     = (fst (splitext input_file) ++ "_failed" ++ snd (splitext input_file))%string
  /\ (snd (splitext input_file) = EmptyString
      \/ exists rest, snd (splitext input_file) = String "." rest
                      /\ forall j, String.get j rest <> Some "/"%char)
  /\ String.length (failed_file_name input_file) = String.length input_file + 7
  /\ failed_file_name input_file <> input_file.
Proof.
  assert (Hrt : (fst (splitext input_file) ++ snd (splitext input_file))%string = input_file).
  { destruct (splitext_cases input_file) as [-> | (d & -> & _)]; simpl;
      [apply append_empty | apply take_drop]. }
  assert (Hff : failed_file_name input_file
                = (fst (splitext input_file) ++ "_failed" ++ snd (splitext input_file))%string).
  { unfold failed_file_name. destruct (splitext input_file); reflexivity. }
  assert (Hlen : String.length (failed_file_name input_file) = String.length input_file + 7).
  { pose proof (f_equal String.length Hrt) as L. rewrite length_append in L.
    rewrite Hff, !length_append. simpl. lia. }
  split; [exact Hrt|]. split; [exact Hff|]. split.
  - destruct (splitext_cases input_file) as [-> | (d & -> & Hdot & Hns)]; [left; reflexivity|].
    right. simpl. destruct (PyStr.drop d input_file) as [|c rest] eqn:E.
    + exfalso. pose proof (get_drop d 0 input_file) as G. rewrite E, Nat.add_0_r, Hdot in G.
      discriminate.
    + pose proof (get_drop d 0 input_file) as G. rewrite E, Nat.add_0_r, Hdot in G.
      injection G as ->. exists rest. split; [reflexivity|].
      intros j Hj. pose proof (get_drop d (S j) input_file) as G. rewrite E in G.
      simpl in G. rewrite G in Hj. exact (Hns (d + S j) ltac:(lia) Hj).
  - split; [exact Hlen|]. intros Heq. rewrite Heq in Hlen. lia.
Qed.

Definition success_ge (a b : ScihubUrl) : Prop := success_times b <= success_times a.

Lemma insert_desc_perm (u : ScihubUrl) (l : list ScihubUrl) :
  Permutation (u :: l) (insert_desc u l).
Proof.
  induction l as [|v l IH]; simpl; [reflexivity|].
  destruct (Nat.leb (success_times v) (success_times u)); [reflexivity|].
  rewrite perm_swap. constructor. exact IH.
Qed.

Lemma insert_desc_hd (u v : ScihubUrl) (l : list ScihubUrl) :
  HdRel success_ge v l -> success_ge v u -> HdRel success_ge v (insert_desc u l).
Proof.
  destruct l as [|w l]; simpl; intros H Hvu; [constructor; exact Hvu|].
  destruct (Nat.leb (success_times w) (success_times u)); constructor; [exact Hvu|].
  inversion H; assumption.
Qed.

Lemma insert_desc_sorted (u : ScihubUrl) (l : list ScihubUrl) :
  Sorted success_ge l -> Sorted success_ge (insert_desc u l).
Proof.
  induction 1 as [|v l Hl IH Hhd]; simpl; [repeat constructor|].
  destruct (Nat.leb (success_times v) (success_times u)) eqn:E.
  - apply Nat.leb_le in E. constructor; [constructor; assumption | constructor; exact E].
  - apply Nat.leb_gt in E. constructor; [exact IH|].
    apply insert_desc_hd; [exact Hhd | unfold success_ge; lia].
Qed.

Lemma insert_desc_filter (k : nat) (u : ScihubUrl) (l : list ScihubUrl) :
  filter (fun v => Nat.eqb (success_times v) k) (insert_desc u l)
  = filter (fun v => Nat.eqb (success_times v) k) (u :: l).
Proof.
  induction l as [|v l IH]; simpl; [reflexivity|].
  destruct (Nat.leb (success_times v) (success_times u)) eqn:E; [reflexivity|].
  apply Nat.leb_gt in E. simpl. rewrite IH. simpl.
  destruct (Nat.eqb (success_times v) k) eqn:Ev, (Nat.eqb (success_times u) k) eqn:Eu;
    try reflexivity.
  apply Nat.eqb_eq in Ev, Eu. lia.
Qed.

(** [list_domains] prints the mirrors sorted by descending success count:
    every stored mirror exactly once, and mirrors with equal success
    counts in the order the store returned them (the sort is stable). *)
Theorem list_domains_sorted (urls : list ScihubUrl) :
  Sorted success_ge (sort_by_success urls)
  /\ Permutation urls (sort_by_success urls)
  /\ (forall k, filter (fun v => Nat.eqb (success_times v) k) (sort_by_success urls)
                = filter (fun v => Nat.eqb (success_times v) k) urls)
  /\ list_domains_rows urls
     = map (fun u => (url u, success_times u, failed_times u)) (sort_by_success urls).
Proof.
  split; [|split; [|split]].
  - induction urls as [|u l IH]; simpl; [constructor | apply insert_desc_sorted; exact IH].
  - induction urls as [|u l IH]; simpl; [reflexivity|].
    rewrite <- insert_desc_perm. constructor. exact IH.
  - intros k. induction urls as [|u l IH]; simpl; [reflexivity|].
    rewrite insert_desc_filter. simpl. rewrite IH. reflexivity.
  - reflexivity.
Qed.






